(** * SQL query generator: a shallow embedding of [main.py]

    The development follows the class [SQLQueryGenerator] of [main.py]:
    the schema registry [self.tables], the registration method
    [add_table], the dispatcher [parse_query] and the four statement
    builders [_generate_select], [_generate_insert], [_generate_update]
    and [_generate_delete]; then the request handler [process_query],
    which works on the generator of the module.

    Modelling choices.
    - A Python [str] is a [string] whose characters are the code points
      below 256; [lower], [isspace] and [strip] are the Python methods
      restricted to that range.
    - A column map (a Python [dict] from column name to type label) is an
      association list in insertion order; [keys] is its [.keys()] view.
    - The registry [self.tables] is a finite map from table names to
      column maps.
    - Methods are computations in a state-and-exception monad over the
      object [self]: a method receives the object, and returns either a
      value or a raised exception together with the object afterwards. *)

From Stdlib Require Import Ascii String NArith Bool Lia.
From stdpp Require Import base option list strings gmap fin_maps.

Local Open Scope N_scope.

(** ** Python string methods *)

Module Py.

(** [c.lower()] on one character: the upper-case letters below 256 are
    A..Z and the Latin-1 letters 192..222 without the sign 215; each has
    its lower-case form 32 places further. *)
Definition lower_char (c : ascii) : ascii :=
  let n := N_of_ascii c in
  if ((65 <=? n) && (n <=? 90))
     || ((192 <=? n) && (n <=? 222) && negb (n =? 215))
  then ascii_of_N (n + 32) else c.

(** [s.lower()] *)
Fixpoint lower (s : string) : string :=
  match s with
  | EmptyString => EmptyString
  | String c s' => String (lower_char c) (lower s')
  end.

(** [c.isspace()]: tab, line feed, vertical tab, form feed, carriage
    return, the four separators 28..31, space, next line (133) and the
    no-break space (160). *)
Definition isspace (c : ascii) : bool :=
  let n := N_of_ascii c in
  ((9 <=? n) && (n <=? 13)) || ((28 <=? n) && (n <=? 32))
  || (n =? 133) || (n =? 160).

(** [s.lstrip()] *)
Fixpoint lstrip (s : string) : string :=
  match s with
  | EmptyString => EmptyString
  | String c s' => if isspace c then lstrip s' else s
  end.

(** [s.rstrip()] *)
Fixpoint rstrip (s : string) : string :=
  match s with
  | EmptyString => EmptyString
  | String c s' =>
      match rstrip s' with
      | EmptyString => if isspace c then EmptyString else String c EmptyString
      | r => String c r
      end
  end.

(** [s.strip()] *)
Definition strip (s : string) : string := rstrip (lstrip s).

(** [sub in s]: [sub] occurs in [s] at some position. *)
Fixpoint contains (sub s : string) : bool :=
  String.prefix sub s
  || match s with
     | EmptyString => false
     | String _ s' => contains sub s'
     end.

(** [s.split(sep)] for a separator that is not empty: the scan goes from
    left to right, an occurrence of [sep] closes the current piece and
    its characters are passed over ([skip] counts those still to pass). *)
Fixpoint split_from (sep : string) (skip : nat) (s : string) : list string :=
  match s with
  | EmptyString => [EmptyString]
  | String c s' =>
      match skip with
      | S k => split_from sep k s'
      | O =>
          if String.prefix sep s
          then EmptyString :: split_from sep (pred (String.length sep)) s'
          else match split_from sep O s' with
               | piece :: pieces => String c piece :: pieces
               | [] => [String c EmptyString]
               end
      end
  end.

Definition split (sep s : string) : list string := split_from sep O s.

(** [sep.join(l)] *)
Definition join (sep : string) (l : list string) : string :=
  String.concat sep l.

End Py.

Local Close Scope N_scope.

(** ** Exceptions and the method monad *)

Inductive exn : Type :=
| ValueError (msg : string)
| KeyError (key : string)
| IndexError.

Inductive result (A : Type) : Type :=
| Ok (a : A)
| Raise (e : exn).
Arguments Ok {A} a.
Arguments Raise {A} e.

(** A column map, in declaration order. *)
Abbreviation ColumnMap := (list (string * string)).

(** [table_columns.keys()] *)
Definition keys (columns : ColumnMap) : list string := map fst columns.

(** The object: its only attribute is the registry [self.tables]. *)
Record SQLQueryGenerator : Type := MkGen {
  tables : gmap string ColumnMap
}.

(** [SQLQueryGenerator()] *)
Definition __init__ : SQLQueryGenerator := MkGen ∅.

Definition M (A : Type) : Type :=
  SQLQueryGenerator → result A * SQLQueryGenerator.

Global Instance M_ret : MRet M := λ A a self, (Ok a, self).

Global Instance M_bind : MBind M := λ A B f m self,
  match m self with
  | (Ok a, self') => f a self'
  | (Raise e, self') => (Raise e, self')
  end.

Definition raise {A} (e : exn) : M A := λ self, (Raise e, self).

(** Reading [self.tables]. *)
Definition get_tables : M (gmap string ColumnMap) :=
  λ self, (Ok (tables self), self).

(** [self.tables[table_name] = columns] *)
Definition setitem_tables (table_name : string) (columns : ColumnMap) : M unit :=
  λ self, (Ok (), MkGen (<[table_name := columns]> (tables self))).

(** [self.tables[table_name]] *)
Definition getitem_tables (table_name : string) : M ColumnMap :=
  tbls ← get_tables;
  match tbls !! table_name with
  | Some columns => mret columns
  | None => raise (KeyError table_name)
  end.

(** [l[i]] on a list *)
Definition getitem {A} (l : list A) (i : nat) : M A :=
  match l !! i with
  | Some x => mret x
  | None => raise IndexError
  end.

(** ** The class [SQLQueryGenerator] *)

(** [any(word in query for word in words)] *)
Definition any_in (words : list string) (query : string) : bool :=
  existsb (λ word, Py.contains word query) words.

Definition add_table (table_name : string) (columns : ColumnMap) : M unit :=
  setitem_tables table_name columns.

(** The loop of [_generate_select]: every key whose lower-case form occurs
    in the query is appended to [columns]. *)
Fixpoint select_loop (query : string) (cols : list string)
    (columns : list string) : list string :=
  match cols with
  | [] => columns
  | col :: cols' =>
      select_loop query cols'
        (if Py.contains (Py.lower col) query then columns ++ [col] else columns)
  end.

(** Truth value of a list: [not l] holds of the empty list only. *)
Definition is_nil {A} (l : list A) : bool :=
  match l with [] => true | _ => false end.

Definition _generate_select (query table_name : string) : M string :=
  table_columns ← getitem_tables table_name;
  let columns := select_loop query (keys table_columns) [] in
  let columns := if is_nil columns then ["*"] else columns in
  conditions ←
    (if Py.contains "where" query
     then piece ← getitem (Py.split "where" query) 1;
          mret ([] ++ [Py.strip piece])
     else mret []);
  let sql := "SELECT " +:+ Py.join ", " columns +:+ " FROM " +:+ table_name in
  let sql := if is_nil conditions then sql
             else sql +:+ " WHERE " +:+ Py.join " AND " conditions in
  mret (sql +:+ ";").

Definition _generate_insert (query table_name : string) : M string :=
  table_columns ← getitem_tables table_name;
  let columns := keys table_columns in
  let placeholders := replicate (length columns) "%s" in
  mret ("INSERT INTO " +:+ table_name +:+ " (" +:+ Py.join ", " columns
        +:+ ") VALUES (" +:+ Py.join ", " placeholders +:+ ");").

Definition _generate_update (query table_name : string) : M string :=
  table_columns ← getitem_tables table_name;
  let columns := keys table_columns in
  let set_clause := Py.join ", " (map (λ col, col +:+ " = %s") columns) in
  mret ("UPDATE " +:+ table_name +:+ " SET " +:+ set_clause
        +:+ " WHERE condition = %s;").

Definition _generate_delete (query table_name : string) : M string :=
  mret ("DELETE FROM " +:+ table_name +:+ " WHERE condition = %s;").

(** The keyword lists of the four tests of [parse_query], in the order of
    the tests. *)
Definition select_words : list string := ["show"; "select"; "get"; "find"; "display"].
Definition insert_words : list string := ["add"; "insert"; "create"].
Definition update_words : list string := ["update"; "modify"; "change"].
Definition delete_words : list string := ["delete"; "remove"].

Definition parse_query (natural_query table_name : string) : M string :=
  tbls ← get_tables;
  if negb (bool_decide (is_Some (tbls !! table_name)))
  then raise (ValueError ("Table '" +:+ table_name +:+ "' not found"))
  else
    let query := Py.lower natural_query in
    if any_in select_words query then _generate_select query table_name
    else if any_in insert_words query then _generate_insert query table_name
    else if any_in update_words query then _generate_update query table_name
    else if any_in delete_words query then _generate_delete query table_name
    else raise (ValueError "Could not determine query type").

(** ** Notions of the specification *)

(** The closed set of statement types, in priority order, and the keyword
    set of each. *)
Inductive stmt_type : Type := SELECT | INSERT | UPDATE | DELETE.

Definition priority : list stmt_type := [SELECT; INSERT; UPDATE; DELETE].

Definition keywords (ty : stmt_type) : list string :=
  match ty with
  | SELECT => ["show"; "select"; "get"; "find"; "display"]
  | INSERT => ["add"; "insert"; "create"]
  | UPDATE => ["update"; "modify"; "change"]
  | DELETE => ["delete"; "remove"]
  end.

(** Some keyword of the set of [ty] is a substring of the sentence. *)
Definition matches (ty : stmt_type) (sentence : string) : bool :=
  existsb (λ kw, Py.contains kw sentence) (keywords ty).

(** Classification as the specification words it: the first statement
    type, in priority order, whose keyword set matches. *)
Definition classify_spec (sentence : string) : option stmt_type :=
  List.find (λ ty, matches ty sentence) priority.

(** The builder that belongs to a statement type. *)
Definition builder (ty : stmt_type) : string → string → M string :=
  match ty with
  | SELECT => _generate_select
  | INSERT => _generate_insert
  | UPDATE => _generate_update
  | DELETE => _generate_delete
  end.

(** The two failures of [parse_query]. *)
Definition NotFoundError (table_name : string) : exn :=
  ValueError ("Table '" +:+ table_name +:+ "' not found").
Definition ClassificationError : exn :=
  ValueError "Could not determine query type".

(** [s[n:]] *)
Fixpoint drop_chars (n : nat) (s : string) : string :=
  match n, s with
  | S n', String _ s' => drop_chars n' s'
  | _, _ => s
  end.

(** The text that follows the first occurrence of [sep] in [s], when
    there is one. *)
Fixpoint after_first (sep s : string) : option string :=
  if String.prefix sep s then Some (drop_chars (String.length sep) s)
  else match s with
       | EmptyString => None
       | String _ s' => after_first sep s'
       end.

(** The WHERE condition as the specification words it: everything after
    the first "where", trimmed. *)
Definition where_clause_spec (query : string) : option string :=
  Py.strip <$> after_first "where" query.

(** The WHERE condition the code computes: the second piece of the split
    at "where", trimmed. *)
Definition condition_part (query : string) : string :=
  Py.strip (default EmptyString (Py.split "where" query !! 1%nat)).

(** A string of white space only. *)
Fixpoint blank (s : string) : bool :=
  match s with
  | EmptyString => true
  | String c s' => Py.isspace c && blank s'
  end.

(** Number of positions of [s] at which [sub] occurs. The placeholder "%s"
    cannot overlap itself, so for it this is Python's [s.count("%s")]. *)
Fixpoint occurrences (sub s : string) : nat :=
  (if String.prefix sub s then 1 else 0)
  + match s with
    | EmptyString => 0
    | String _ s' => occurrences sub s'
    end.

Definition placeholders (sql : string) : nat := occurrences "%s" sql.

(** The column list of a SELECT statement. *)
Definition column_list (cols : list string) : string :=
  match cols with
  | [] => "*"
  | _ => Py.join ", " cols
  end.

(** The thirteen keywords. *)
Definition all_keywords : list string :=
  ["show"; "select"; "get"; "find"; "display"; "add"; "insert"; "create";
   "update"; "modify"; "change"; "delete"; "remove"].

(** The table of the scenarios, and a generator that holds only it. *)
Definition users : ColumnMap := [("name", "varchar"); ("age", "int")].

Definition users_only : SQLQueryGenerator := MkGen {["users" := users]}.

(** ** The request handler [process_query] *)

(** The body of a request ([TableRequest]). *)
Record TableRequest : Type := MkRequest {
  natural_query : string;
  table_name : string;
  columns : ColumnMap
}.

(** What the handler gives back: the dictionary of a successful request,
    or the [HTTPException] it raises. *)
Inductive response : Type :=
| Success (message sql_query : string)
| HTTPException (status_code : nat) (detail : string).

Section handler.

(** [repr] on a [str], which [str(e)] uses for a [KeyError]; it is left
    open. *)
Variable repr : string → string.

(** [str(e)] *)
Definition str_exn (e : exn) : string :=
  match e with
  | ValueError msg => msg
  | KeyError key => repr key
  | IndexError => "list index out of range"
  end.

(** The handler works on the generator of the module, [query_generator]:
    it registers the table of the request, generates the statement, and
    turns a [ValueError] into the status 400 and any other exception into
    the status 500. The [print] of the request is left out. *)
Definition process_query (request : TableRequest)
    : SQLQueryGenerator → response * SQLQueryGenerator := λ query_generator,
  match (add_table (table_name request) (columns request) ;;
         parse_query (natural_query request) (table_name request))
          query_generator with
  | (Ok sql_query, query_generator') =>
      (Success ("Table '" +:+ table_name request
                +:+ "' added and query generated successfully") sql_query,
       query_generator')
  | (Raise (ValueError msg), query_generator') =>
      (HTTPException 400 msg, query_generator')
  | (Raise e, query_generator') =>
      (HTTPException 500 (str_exn e), query_generator')
  end.

End handler.

(** The generator after a request: the table of the request is
    registered with the columns of the request. *)
Definition after_request (request : TableRequest) (self : SQLQueryGenerator)
    : SQLQueryGenerator :=
  MkGen (<[table_name request := columns request]> (tables self)).

(** The message of a successful request. *)
Definition success_message (request : TableRequest) : string :=
  "Table '" +:+ table_name request +:+ "' added and query generated successfully".


(** ** Strings: append, prefixes and occurrences *)

Section strings.
Implicit Types (a b c s sep sub : string) (ch : ascii).

Lemma sapp_cons ch a b : String ch a +:+ b = String ch (a +:+ b).
Proof. done. Qed.

Lemma sapp_nil_l s : "" +:+ s = s.
Proof. done. Qed.

Lemma sapp_nil_r s : s +:+ "" = s.
Proof. induction s as [|ch s IH]; [done|]. by rewrite sapp_cons, IH. Qed.

Lemma sapp_assoc a b c : (a +:+ b) +:+ c = a +:+ b +:+ c.
Proof. induction a as [|ch a IH]; [done|]. by rewrite !sapp_cons, IH. Qed.

Lemma prefix_nil s : String.prefix "" s = true.
Proof. by destruct s. Qed.

Lemma prefix_cons ch1 ch2 sub s :
  String.prefix (String ch1 sub) (String ch2 s)
  = bool_decide (ch1 = ch2) && String.prefix sub s.
Proof.
  cbn. destruct (ascii_dec ch1 ch2) as [->|Hne].
  - by rewrite bool_decide_eq_true_2.
  - by rewrite bool_decide_eq_false_2.
Qed.

Lemma prefix_app sub s : String.prefix sub (sub +:+ s) = true.
Proof.
  induction sub as [|ch sub IH]; [apply prefix_nil|].
  rewrite sapp_cons, prefix_cons, IH. by rewrite bool_decide_eq_true_2.
Qed.

Lemma prefix_drop sub s :
  String.prefix sub s = true → s = sub +:+ drop_chars (String.length sub) s.
Proof.
  revert s. induction sub as [|ch sub IH]; intros s H.
  - by destruct s.
  - destruct s as [|ch' s]; [done|].
    rewrite prefix_cons in H. apply andb_true_iff in H as [Hc H].
    apply bool_decide_eq_true in Hc as ->.
    cbn [String.length drop_chars]. rewrite sapp_cons. f_equal. by apply IH.
Qed.

Lemma drop_chars_app a b : drop_chars (String.length a) (a +:+ b) = b.
Proof. induction a as [|ch a IH]; [by destruct b|]. done. Qed.

(** *** [in] *)

Lemma contains_cons sub ch s :
  Py.contains sub (String ch s)
  = String.prefix sub (String ch s) || Py.contains sub s.
Proof. done. Qed.

Lemma after_first_unfold sub s :
  after_first sub s
  = if String.prefix sub s then Some (drop_chars (String.length sub) s)
    else match s with
         | EmptyString => None
         | String _ s' => after_first sub s'
         end.
Proof. by destruct s. Qed.

Lemma contains_after_first sub s :
  Py.contains sub s = true ↔ is_Some (after_first sub s).
Proof.
  induction s as [|ch s IH]; cbn -[String.prefix].
  - destruct (String.prefix sub ""); cbn.
    + split; [by eexists|done].
    + split; [done|]. by intros [? ?].
  - destruct (String.prefix sub (String ch s)); cbn; [|done].
    split; [by eexists|done].
Qed.

Lemma after_first_app sub s r :
  after_first sub s = Some r → ∃ a, s = a +:+ sub +:+ r ∧
    ∀ a1 a2, a = a1 +:+ a2 → a2 ≠ "" →
      String.prefix sub (a2 +:+ sub +:+ r) = false.
Proof.
  revert r. induction s as [|ch s IH]; intros r; cbn -[String.prefix].
  - destruct (String.prefix sub "") eqn:Hp; [|done].
    intros [= <-]. exists "". split; [by apply prefix_drop in Hp|].
    intros [|??] [|??] ?; done.
  - destruct (String.prefix sub (String ch s)) eqn:Hp.
    + intros [= <-]. exists "". split; [by apply prefix_drop in Hp|].
      intros [|??] [|??] ?; done.
    + intros [a [-> Ha]]%IH. exists (String ch a). split; [done|].
      intros [|ch1 a1] a2 Heq Hne.
      * rewrite sapp_nil_l in Heq. by subst a2.
      * rewrite sapp_cons in Heq. injection Heq as -> ->. by apply (Ha a1 a2).
Qed.

(** Conversely: [r] is what [after_first] returns when it follows an
    occurrence of [sub] before which no occurrence starts. *)
Lemma after_first_intro sub a r :
  (∀ a1 a2, a = a1 +:+ a2 → a2 ≠ "" →
     String.prefix sub (a2 +:+ sub +:+ r) = false) →
  after_first sub (a +:+ sub +:+ r) = Some r.
Proof.
  induction a as [|ch a IH]; intros Ha; rewrite after_first_unfold.
  - by rewrite sapp_nil_l, prefix_app, drop_chars_app.
  - rewrite (Ha "" (String ch a)) by done. rewrite sapp_cons. apply IH.
    intros a1 a2 -> Hne. by apply (Ha (String ch a1) a2).
Qed.

End strings.

(** ** [split] and [strip] *)

Section split.
Implicit Types (s sep r piece : string) (ch : ascii) (k : nat).

Lemma split_from_skip sep k s :
  Py.split_from sep k s = Py.split_from sep 0 (drop_chars k s).
Proof.
  revert k. induction s as [|ch s IH]; intros [|k]; try done.
  cbn [Py.split_from drop_chars]. apply IH.
Qed.

Lemma split_from_cons sep k s : ∃ piece pieces,
  Py.split_from sep k s = piece :: pieces.
Proof.
  revert k. induction s as [|ch s IH]; intros k; [by eexists _, _|].
  destruct k as [|k]; cbn [Py.split_from]; [|apply IH].
  destruct (String.prefix sep (String ch s)); [by eexists _, _|].
  destruct (IH 0) as (piece & pieces & ->). by eexists _, _.
Qed.

(** Without an occurrence of the separator there is one piece. *)
Lemma split_absent sep s :
  Py.contains sep s = false → Py.split sep s = [s].
Proof.
  unfold Py.split. induction s as [|ch s IH]; [done|].
  rewrite contains_cons. intros [Hp Hc]%orb_false_iff.
  cbn [Py.split_from]. rewrite Hp, (IH Hc). done.
Qed.

(** The scan resumes right after the first occurrence. *)
Lemma split_after_first sep s r :
  sep ≠ "" → after_first sep s = Some r →
  ∃ piece, Py.split sep s = piece :: Py.split sep r.
Proof.
  intros Hsep. unfold Py.split. revert r.
  induction s as [|ch s IH]; intros r; cbn -[String.prefix].
  - destruct sep; [done|]. done.
  - destruct (String.prefix sep (String ch s)) eqn:Hp.
    + intros [= <-]. exists "". f_equal.
      rewrite split_from_skip. by destruct sep.
    + intros (piece & ->)%IH. by eexists.
Qed.

(** The piece of index 1 exists as soon as the separator occurs. *)
Lemma split_second sep s :
  sep ≠ "" → Py.contains sep s = true →
  ∃ piece, Py.split sep s !! 1%nat = Some piece.
Proof.
  intros Hsep [r Hr]%contains_after_first.
  destruct (split_after_first sep s r Hsep Hr) as [p0 ->].
  destruct (split_from_cons sep 0 r) as (p1 & ps & Hps).
  unfold Py.split. rewrite Hps. by eexists.
Qed.

(** With one occurrence only, that piece is all the text after it. *)
Lemma split_second_single sep s r :
  sep ≠ "" → after_first sep s = Some r → Py.contains sep r = false →
  Py.split sep s !! 1%nat = Some r.
Proof.
  intros Hsep Hr Hc.
  destruct (split_after_first sep s r Hsep Hr) as [p0 ->].
  by rewrite (split_absent sep r Hc).
Qed.

Lemma isspace_not_w ch : Py.isspace ch = true → ch ≠ "w"%char.
Proof. by intros H ->. Qed.

Lemma blank_no_where s : blank s = true → Py.contains "where" s = false.
Proof.
  induction s as [|ch s IH]; [done|].
  cbn [blank]. intros [Hc Hs]%andb_true_iff.
  rewrite contains_cons, prefix_cons, (IH Hs).
  rewrite bool_decide_eq_false_2; [done|].
  intros Hw. by apply (isspace_not_w _ Hc).
Qed.

Lemma blank_strip s : blank s = true → Py.strip s = "".
Proof.
  unfold Py.strip. induction s as [|ch s IH]; [done|].
  cbn [blank Py.lstrip]. intros [-> Hs]%andb_true_iff. by apply IH.
Qed.

(** For a sentence with a single "where" the code computes the
    condition of the specification. *)
Lemma condition_part_single query r :
  after_first "where" query = Some r → Py.contains "where" r = false →
  where_clause_spec query = Some (condition_part query).
Proof.
  intros Hr Hc. unfold where_clause_spec, condition_part.
  rewrite Hr, (split_second_single "where" query r); done.
Qed.

End split.

(** ** The builders on a registered table *)

Section builders.
Implicit Types (self : SQLQueryGenerator) (C : ColumnMap).
Implicit Types (q query t col : string).

Lemma getitem_tables_registered self t C :
  tables self !! t = Some C → getitem_tables t self = (Ok C, self).
Proof. intros H. unfold getitem_tables, mbind, M_bind, get_tables. by rewrite H. Qed.

(** The loop keeps, in order, the keys that occur in the query. *)
Lemma select_loop_filter query (cols columns : list string) :
  select_loop query cols columns
  = columns ++ filter (λ col, Py.contains (Py.lower col) query = true) cols.
Proof.
  revert columns. induction cols as [|col cols IH]; intros columns.
  - by rewrite filter_nil, app_nil_r.
  - cbn [select_loop]. rewrite IH, filter_cons.
    destruct (Py.contains (Py.lower col) query) eqn:Hc.
    + rewrite decide_True by done. by rewrite <- app_assoc.
    + by rewrite decide_False by done.
Qed.

Lemma generate_select_registered self query t C :
  tables self !! t = Some C →
  _generate_select query t self
  = (Ok ("SELECT " +:+ column_list (select_loop query (keys C) [])
         +:+ " FROM " +:+ t
         +:+ (if Py.contains "where" query
              then " WHERE " +:+ condition_part query else "")
         +:+ ";"), self).
Proof.
  intros H. unfold _generate_select, mbind, M_bind.
  rewrite (getitem_tables_registered _ _ _ H).
  assert (Hcols : Py.join ", "
            (if is_nil (select_loop query (keys C) []) then ["*"]
             else select_loop query (keys C) [])
          = column_list (select_loop query (keys C) [])).
  { by destruct (select_loop query (keys C) []). }
  rewrite Hcols. unfold condition_part.
  destruct (Py.contains "where" query) eqn:Hw.
  - destruct (split_second "where" query) as [piece Hp]; [done..|].
    unfold getitem. rewrite Hp. cbn -[String.append].
    by rewrite !sapp_assoc.
  - cbn -[String.append]. by rewrite !sapp_assoc, sapp_nil_l.
Qed.

Lemma generate_insert_registered self query t C :
  tables self !! t = Some C →
  _generate_insert query t self
  = (Ok ("INSERT INTO " +:+ t +:+ " (" +:+ Py.join ", " (keys C)
         +:+ ") VALUES ("
         +:+ Py.join ", " (replicate (length (keys C)) "%s") +:+ ");"), self).
Proof.
  intros H. unfold _generate_insert, mbind, M_bind.
  by rewrite (getitem_tables_registered _ _ _ H).
Qed.

Lemma generate_update_registered self query t C :
  tables self !! t = Some C →
  _generate_update query t self
  = (Ok ("UPDATE " +:+ t +:+ " SET "
         +:+ Py.join ", " (map (λ col, col +:+ " = %s") (keys C))
         +:+ " WHERE condition = %s;"), self).
Proof.
  intros H. unfold _generate_update, mbind, M_bind.
  by rewrite (getitem_tables_registered _ _ _ H).
Qed.

Lemma parse_query_registered self q t C :
  tables self !! t = Some C →
  parse_query q t self
  = let query := Py.lower q in
    if any_in select_words query then _generate_select query t self
    else if any_in insert_words query then _generate_insert query t self
    else if any_in update_words query then _generate_update query t self
    else if any_in delete_words query then _generate_delete query t self
    else (Raise ClassificationError, self).
Proof.
  intros H. unfold parse_query, mbind, M_bind, get_tables.
  rewrite H, bool_decide_eq_true_2 by eauto. cbn [negb].
  by repeat case_match.
Qed.

Lemma parse_query_unregistered self q t :
  tables self !! t = None →
  parse_query q t self = (Raise (NotFoundError t), self).
Proof.
  intros H. unfold parse_query, mbind, M_bind, get_tables.
  rewrite H, bool_decide_eq_false_2; [done|]. by intros [? ?].
Qed.

(** The chain of tests of [parse_query] is the classification of the
    specification. *)
Lemma parse_query_dispatch self q t C :
  tables self !! t = Some C →
  parse_query q t self
  = match classify_spec (Py.lower q) with
    | Some ty => builder ty (Py.lower q) t self
    | None => (Raise ClassificationError, self)
    end.
Proof.
  intros H. rewrite (parse_query_registered _ _ _ _ H).
  unfold classify_spec, priority, matches. cbn [List.find keywords].
  fold select_words insert_words update_words delete_words.
  change (existsb (λ kw, Py.contains kw (Py.lower q))) with
    (λ words, any_in words (Py.lower q)). cbn beta zeta.
  by repeat case_match.
Qed.

End builders.

(** ** Counting placeholders *)

Section placeholders.
Implicit Types (a b s t col : string) (ch : ascii) (cols : list string).

Lemma placeholders_nil : placeholders "" = 0.
Proof. done. Qed.

Lemma placeholders_cons ch s :
  placeholders (String ch s)
  = (if bool_decide ("%"%char = ch) && String.prefix "s" s then 1 else 0)
    + placeholders s.
Proof. unfold placeholders. cbn [occurrences]. by rewrite prefix_cons. Qed.

Lemma placeholders_cons_other ch s :
  ch ≠ "%"%char → placeholders (String ch s) = placeholders s.
Proof.
  intros H. rewrite placeholders_cons, bool_decide_eq_false_2; done.
Qed.

Lemma placeholders_pct_s s :
  placeholders (String "%" (String "s" s)) = S (placeholders s).
Proof.
  rewrite placeholders_cons, prefix_cons, prefix_nil.
  by rewrite (placeholders_cons_other "s").
Qed.

(** No occurrence straddles a boundary after which no "s" comes. *)
Lemma placeholders_app a b :
  String.prefix "s" b = false →
  placeholders (a +:+ b) = placeholders a + placeholders b.
Proof.
  intros Hb. induction a as [|ch a IH]; [done|].
  rewrite sapp_cons, !placeholders_cons, IH.
  assert (String.prefix "s" (a +:+ b) = String.prefix "s" a) as ->; [|lia].
  destruct a as [|ch' a]; [by rewrite sapp_nil_l, Hb|].
  by rewrite sapp_cons, !prefix_cons, !prefix_nil.
Qed.

Lemma placeholders_absent s :
  Py.contains "%s" s = false → placeholders s = 0.
Proof.
  unfold placeholders. induction s as [|ch s IH]; [done|].
  rewrite contains_cons. intros [Hp Hc]%orb_false_iff.
  cbn [occurrences]. by rewrite Hp, (IH Hc).
Qed.

Lemma join_cons_cons sep a b cols :
  Py.join sep (a :: b :: cols) = a +:+ sep +:+ Py.join sep (b :: cols).
Proof. done. Qed.

Ltac pieces :=
  repeat first
    [ rewrite sapp_cons | rewrite sapp_nil_l | rewrite placeholders_pct_s
    | rewrite placeholders_cons_other by done | rewrite placeholders_nil ].

Lemma placeholders_join cols :
  placeholders (Py.join ", " cols) = sum_list (placeholders <$> cols).
Proof.
  induction cols as [|a [|b cols] IH]; [done| |].
  - change (placeholders a = placeholders a + 0). lia.
  - rewrite join_cons_cons, placeholders_app by done.
    pieces. by rewrite IH.
Qed.

Lemma placeholders_join_replicate n :
  placeholders (Py.join ", " (replicate n "%s")) = n.
Proof.
  destruct n as [|n]; [done|].
  induction n as [|n IH]; [done|].
  change (replicate (S (S n)) "%s") with ("%s" :: "%s" :: replicate n "%s").
  rewrite join_cons_cons. pieces.
  change ("%s" :: replicate n "%s") with (replicate (S n) "%s").
  by rewrite IH.
Qed.

Lemma placeholders_join_set cols :
  placeholders (Py.join ", " (map (λ col, col +:+ " = %s") cols))
  = length cols + sum_list (placeholders <$> cols).
Proof.
  induction cols as [|a [|b cols] IH]; [done| |].
  - change (placeholders (a +:+ " = %s") = 1 + (placeholders a + 0)).
    rewrite placeholders_app by done. pieces. lia.
  - cbn [map]. rewrite join_cons_cons, sapp_assoc.
    rewrite placeholders_app by done. pieces.
    cbn [map] in IH. rewrite IH.
    change (sum_list (placeholders <$> a :: b :: cols))
      with (placeholders a + sum_list (placeholders <$> b :: cols)).
    cbn [length]. lia.
Qed.

Lemma placeholders_insert t cols :
  placeholders ("INSERT INTO " +:+ t +:+ " (" +:+ Py.join ", " cols
                +:+ ") VALUES ("
                +:+ Py.join ", " (replicate (length cols) "%s") +:+ ");")
  = length cols + (placeholders t + sum_list (placeholders <$> cols)).
Proof.
  pieces. rewrite (placeholders_app t) by done. pieces.
  rewrite (placeholders_app (Py.join _ _)) by done. pieces.
  rewrite (placeholders_app (Py.join _ _)) by done. pieces.
  rewrite placeholders_join, placeholders_join_replicate. lia.
Qed.

Lemma placeholders_update t cols :
  placeholders ("UPDATE " +:+ t +:+ " SET "
                +:+ Py.join ", " (map (λ col, col +:+ " = %s") cols)
                +:+ " WHERE condition = %s;")
  = length cols + 1 + (placeholders t + sum_list (placeholders <$> cols)).
Proof.
  pieces. rewrite (placeholders_app t) by done. pieces.
  rewrite (placeholders_app (Py.join _ _)) by done. pieces.
  rewrite placeholders_join_set. lia.
Qed.

Lemma placeholders_delete t :
  placeholders ("DELETE FROM " +:+ t +:+ " WHERE condition = %s;")
  = 1 + placeholders t.
Proof.
  pieces. rewrite (placeholders_app t) by done. pieces. lia.
Qed.

Lemma sum_placeholders_absent cols :
  (∀ col, col ∈ cols → Py.contains "%s" col = false) →
  sum_list (placeholders <$> cols) = 0.
Proof.
  induction cols as [|a cols IH]; [done|]. intros H.
  change (placeholders a + sum_list (placeholders <$> cols) = 0).
  rewrite placeholders_absent, IH; [done| |].
  - intros col Hcol. apply H. by right.
  - apply H. by left.
Qed.

End placeholders.

(** ** Scenario *)

(** C1 (as amended). After [users] is registered with the columns [name]
    and [age], in that order, the sentence "show me the name where age is
    30" yields "SELECT name, age FROM users WHERE age is 30;": the column
    [age] is listed too, because its name occurs in the sentence (inside
    the condition). *)
Theorem scenario_select_name_age self :
  (add_table "users" users ;;
   parse_query "show me the name where age is 30" "users") self
  = (Ok "SELECT name, age FROM users WHERE age is 30;",
     MkGen (<["users" := users]> (tables self))).
Proof.
  unfold mbind, M_bind, add_table, setitem_tables.
  set (self' := MkGen _).
  assert (Hreg : tables self' !! "users" = Some users) by apply lookup_insert_eq.
  rewrite (parse_query_dispatch _ _ _ _ Hreg).
  change (classify_spec _) with (Some SELECT). cbn [builder].
  rewrite (generate_select_registered _ _ _ _ Hreg).
  reflexivity.
Qed.

(** C1 as stated fails: the statement returned is not the one with the
    single column [name]. *)
Lemma scenario_select_not_name_only :
  fst ((add_table "users" users ;;
        parse_query "show me the name where age is 30" "users") __init__)
  ≠ Ok "SELECT name FROM users WHERE age is 30;".
Proof. vm_compute. discriminate. Qed.

(** ** The SELECT statement *)

(** C2 (the code at a sentence with two "where"). The condition emitted is
    the text between the first and the second "where" ("age is 30 or"),
    whereas the text after the first "where", trimmed, is "age is 30 or
    where age is 40": what follows the second "where" is lost. *)
Theorem where_clause_stops_at_second_where self :
  let q := "show me the name where age is 30 or where age is 40" in
  (add_table "users" users ;; parse_query q "users") self
  = (Ok "SELECT name, age FROM users WHERE age is 30 or;",
     MkGen (<["users" := users]> (tables self)))
  ∧ where_clause_spec (Py.lower q) = Some "age is 30 or where age is 40"
  ∧ condition_part (Py.lower q) = "age is 30 or".
Proof.
  intros q. split; [|done].
  unfold mbind, M_bind, add_table, setitem_tables.
  set (self' := MkGen _).
  assert (Hreg : tables self' !! "users" = Some users) by apply lookup_insert_eq.
  rewrite (parse_query_dispatch _ _ _ _ Hreg).
  change (classify_spec _) with (Some SELECT). cbn [builder].
  rewrite (generate_select_registered _ _ _ _ Hreg).
  reflexivity.
Qed.

(** C4. On a registered table (whose column names are distinct, as the
    keys of a dict are) and a sentence classified as SELECT, the column
    list is made of the registered column names whose lower-case form
    occurs in the lower-cased sentence: each of them once, in the
    declaration order of the table. When there is none the list is "*",
    and without "where" the statement is then "SELECT * FROM t;". *)
Theorem select_column_list self q t C :
  tables self !! t = Some C →
  NoDup (keys C) →
  any_in select_words (Py.lower q) = true →
  ∃ cols,
    cols `sublist_of` keys C
    ∧ NoDup cols
    ∧ (∀ col, col ∈ cols ↔
         col ∈ keys C ∧ Py.contains (Py.lower col) (Py.lower q) = true)
    ∧ parse_query q t self
      = (Ok ("SELECT " +:+ column_list cols +:+ " FROM " +:+ t
             +:+ (if Py.contains "where" (Py.lower q)
                  then " WHERE " +:+ condition_part (Py.lower q) else "")
             +:+ ";"), self)
    ∧ (cols = [] → column_list cols = "*")
    ∧ (cols = [] → Py.contains "where" (Py.lower q) = false →
       parse_query q t self = (Ok ("SELECT * FROM " +:+ t +:+ ";"), self)).
Proof.
  intros Hreg Hnd Hsel.
  set (P := λ col, Py.contains (Py.lower col) (Py.lower q) = true).
  assert (Hrun : parse_query q t self
          = (Ok ("SELECT " +:+ column_list (filter P (keys C))
                 +:+ " FROM " +:+ t
                 +:+ (if Py.contains "where" (Py.lower q)
                      then " WHERE " +:+ condition_part (Py.lower q) else "")
                 +:+ ";"), self)).
  { rewrite (parse_query_registered _ _ _ _ Hreg). cbv zeta. rewrite Hsel.
    rewrite (generate_select_registered _ _ _ _ Hreg).
    by rewrite select_loop_filter. }
  exists (filter P (keys C)). split_and!.
  - apply sublist_filter.
  - by apply NoDup_filter.
  - intros col. by rewrite list_elem_of_filter, (comm and).
  - done.
  - by intros ->.
  - intros Hnil Hw. rewrite Hrun, Hnil, Hw. done.
Qed.

Lemma select_column_list_witness :
  ∃ cols,
    cols `sublist_of` keys users
    ∧ NoDup cols
    ∧ (∀ col, col ∈ cols ↔
         col ∈ keys users ∧ Py.contains (Py.lower col) (Py.lower "Show the AGE") = true)
    ∧ parse_query "Show the AGE" "users" users_only
      = (Ok ("SELECT " +:+ column_list cols +:+ " FROM " +:+ "users"
             +:+ (if Py.contains "where" (Py.lower "Show the AGE")
                  then " WHERE " +:+ condition_part (Py.lower "Show the AGE") else "")
             +:+ ";"), users_only)
    ∧ (cols = [] → column_list cols = "*")
    ∧ (cols = [] → Py.contains "where" (Py.lower "Show the AGE") = false →
       parse_query "Show the AGE" "users" users_only
       = (Ok ("SELECT * FROM " +:+ "users" +:+ ";"), users_only)).
Proof.
  apply (select_column_list users_only "Show the AGE" "users" users).
  - reflexivity.
  - apply (bool_decide_unpack _). vm_compute. exact I.
  - reflexivity.
Defined.

(** C10 (as amended). On a registered table and a sentence classified as
    SELECT, when the text after the first "where" of the lower-cased
    sentence is white space only (or nothing), the statement still has its
    WHERE segment, with an empty condition: it ends in " WHERE ;". *)
Theorem select_empty_where self q t C w :
  tables self !! t = Some C →
  any_in select_words (Py.lower q) = true →
  after_first "where" (Py.lower q) = Some w →
  blank w = true →
  parse_query q t self
  = (Ok (("SELECT " +:+ column_list (select_loop (Py.lower q) (keys C) [])
          +:+ " FROM " +:+ t) +:+ " WHERE ;"), self).
Proof.
  intros Hreg Hsel Hw Hblank.
  rewrite (parse_query_registered _ _ _ _ Hreg). cbv zeta. rewrite Hsel.
  rewrite (generate_select_registered _ _ _ _ Hreg).
  assert (Py.contains "where" (Py.lower q) = true) as ->.
  { apply contains_after_first. by eexists. }
  unfold condition_part.
  rewrite (split_second_single "where" _ w) by auto using blank_no_where.
  change (default "" (Some w)) with w. rewrite (blank_strip w Hblank).
  by rewrite !sapp_assoc.
Qed.

Lemma select_empty_where_witness :
  parse_query "show the users WHERE  " "users" users_only
  = (Ok (("SELECT " +:+ column_list
            (select_loop (Py.lower "show the users WHERE  ") (keys users) [])
          +:+ " FROM " +:+ "users") +:+ " WHERE ;"), users_only).
Proof.
  apply (select_empty_where users_only "show the users WHERE  " "users" users "  ");
    reflexivity.
Defined.

(** C10 as stated fails: the sentence "show where x where" ends with
    "where", its lower-cased form has a "where" followed by nothing, and
    the statement is "SELECT * FROM users WHERE x;", which does not end
    in "WHERE ;". *)
Lemma select_trailing_where_not_empty :
  let q := "show where x where" in
  (∃ a w, Py.lower q = a +:+ "where" +:+ w ∧ blank w = true)
  ∧ any_in select_words (Py.lower q) = true
  ∧ fst (parse_query q "users" users_only) = Ok "SELECT * FROM users WHERE x;"
  ∧ ¬ ∃ pre, "SELECT * FROM users WHERE x;" = pre +:+ "WHERE ;".
Proof.
  intros q. split_and!.
  - by exists "show where x ", "".
  - done.
  - by vm_compute.
  - intros [pre H].
    do 28 (destruct pre as [|? pre]; [by vm_compute in H|];
           rewrite sapp_cons in H; injection H as _ H).
    by destruct pre.
Qed.

(** ** Placeholders of INSERT, UPDATE and DELETE *)

(** C3 (as amended). On a registered table whose name and column names
    hold no "%s" of their own, whatever else the sentence says: an INSERT
    statement has one placeholder per column, an UPDATE statement has one
    per column and one more in its fixed trailing clause "WHERE condition
    = %s", and a DELETE statement has exactly one. *)
Theorem placeholders_per_statement self q t C :
  tables self !! t = Some C →
  Forall (λ name, Py.contains "%s" name = false) (t :: keys C) →
  (classify_spec (Py.lower q) = Some INSERT →
   ∃ sql, parse_query q t self = (Ok sql, self)
          ∧ placeholders sql = length C)
  ∧ (classify_spec (Py.lower q) = Some UPDATE →
     ∃ sql, parse_query q t self = (Ok sql, self)
            ∧ placeholders sql = length C + 1)
  ∧ (classify_spec (Py.lower q) = Some DELETE →
     ∃ sql, parse_query q t self = (Ok sql, self)
            ∧ placeholders sql = 1).
Proof.
  intros Hreg [Ht Hcols]%Forall_cons.
  apply placeholders_absent in Ht.
  assert (Hsum : sum_list (placeholders <$> keys C) = 0).
  { apply sum_placeholders_absent. by apply Forall_forall. }
  assert (Hlen : length (keys C) = length C) by apply length_map.
  rewrite (parse_query_dispatch _ _ _ _ Hreg).
  split_and!; intros ->; cbn [builder]; eexists; (split; [try done|]).
  - apply (generate_insert_registered _ _ _ _ Hreg).
  - rewrite placeholders_insert. lia.
  - apply (generate_update_registered _ _ _ _ Hreg).
  - rewrite placeholders_update. lia.
  - rewrite placeholders_delete. lia.
Qed.

Lemma placeholders_per_statement_witness :
  (∃ sql, parse_query "Add a new user" "users" users_only = (Ok sql, users_only)
          ∧ placeholders sql = 2)
  ∧ (∃ sql, parse_query "modify the age" "users" users_only = (Ok sql, users_only)
            ∧ placeholders sql = 3)
  ∧ (∃ sql, parse_query "remove this record" "users" users_only = (Ok sql, users_only)
            ∧ placeholders sql = 1).
Proof.
  split_and!.
  - apply (placeholders_per_statement users_only "Add a new user" "users" users);
      [reflexivity | apply (bool_decide_unpack _); vm_compute; exact I
      | reflexivity].
  - apply (placeholders_per_statement users_only "modify the age" "users" users);
      [reflexivity | apply (bool_decide_unpack _); vm_compute; exact I
      | reflexivity].
  - apply (placeholders_per_statement users_only "remove this record" "users" users);
      [reflexivity | apply (bool_decide_unpack _); vm_compute; exact I
      | reflexivity].
Defined.

(** C3 as stated fails twice. An UPDATE statement on the two columns of
    [users] has three placeholders, not two. And a table or column name
    that holds "%s" adds to the count: the INSERT statement of a table
    "log%s" with one column has two. *)
Lemma placeholders_not_len_columns :
  (fst (parse_query "update the user" "users" users_only)
   = Ok "UPDATE users SET name = %s, age = %s WHERE condition = %s;"
   ∧ placeholders "UPDATE users SET name = %s, age = %s WHERE condition = %s;"
     ≠ length users)
  ∧ (fst (parse_query "add a line" "log%s" (MkGen {["log%s" := [("id", "int")]]}))
     = Ok "INSERT INTO log%s (id) VALUES (%s);"
     ∧ placeholders "INSERT INTO log%s (id) VALUES (%s);" ≠ length [("id", "int")]).
Proof. split; (split; [by vm_compute|]); vm_compute; lia. Qed.

(** ** Classification and failures *)

(** The first element of a list that passes a test. *)
Lemma find_first {A} (f : A → bool) (l : list A) (x : A) :
  List.find f l = Some x ↔
  ∃ l1 l2, l = l1 ++ x :: l2 ∧ f x = true ∧ ∀ y, y ∈ l1 → f y = false.
Proof.
  induction l as [|a l IH]; cbn [List.find].
  - split; [done|]. by intros ([|??] & ? & ? & _).
  - destruct (f a) eqn:Ha.
    + split.
      * intros [= ->]. exists [], l. split_and!; [done..|]. by intros ? ?%not_elem_of_nil.
      * intros ([|b l1] & l2 & Hl & Hx & Hl1).
        -- by injection Hl as -> _.
        -- injection Hl as -> _. rewrite Hl1 in Ha; [done|by left].
    + rewrite IH. split.
      * intros (l1 & l2 & -> & Hx & Hl1). exists (a :: l1), l2.
        split_and!; [done..|]. intros y [->|Hy]%elem_of_cons; auto.
      * intros ([|b l1] & l2 & Hl & Hx & Hl1).
        -- injection Hl as -> _. congruence.
        -- injection Hl as -> ->. exists l1, l2. split_and!; [done..|].
           intros y Hy. apply Hl1. by right.
Qed.

(** C5. On a registered table, [parse_query] hands the lower-cased
    sentence to the builder of the first statement type, in the order
    SELECT, INSERT, UPDATE, DELETE, one of whose keywords is a substring of
    it; a sentence that matches several keyword sets goes to the first of
    them in that order. *)
Theorem parse_query_priority self q t C :
  tables self !! t = Some C →
  parse_query q t self
  = match classify_spec (Py.lower q) with
    | Some ty => builder ty (Py.lower q) t self
    | None => (Raise ClassificationError, self)
    end
  ∧ ∀ ty, classify_spec (Py.lower q) = Some ty ↔
      ∃ earlier later,
        priority = earlier ++ ty :: later
        ∧ matches ty (Py.lower q) = true
        ∧ ∀ ty', ty' ∈ earlier → matches ty' (Py.lower q) = false.
Proof.
  intros Hreg. split; [by apply (parse_query_dispatch _ _ _ C)|].
  intros ty. apply (find_first (λ ty', matches ty' (Py.lower q))).
Qed.

Lemma parse_query_priority_witness :
  parse_query "Delete what you find" "users" users_only
  = match classify_spec (Py.lower "Delete what you find") with
    | Some ty => builder ty (Py.lower "Delete what you find") "users" users_only
    | None => (Raise ClassificationError, users_only)
    end
  ∧ ∀ ty, classify_spec (Py.lower "Delete what you find") = Some ty ↔
      ∃ earlier later,
        priority = earlier ++ ty :: later
        ∧ matches ty (Py.lower "Delete what you find") = true
        ∧ ∀ ty', ty' ∈ earlier → matches ty' (Py.lower "Delete what you find") = false.
Proof.
  apply (parse_query_priority users_only "Delete what you find" "users" users).
  reflexivity.
Defined.

(** C6. On a table name that has no entry in the registry, [parse_query]
    fails with the error "Table '...' not found", whatever the sentence;
    this is never the classification error. *)
Theorem unregistered_table_not_found self q t :
  tables self !! t = None →
  parse_query q t self = (Raise (NotFoundError t), self)
  ∧ NotFoundError t ≠ ClassificationError.
Proof.
  intros Hreg. split; [by apply parse_query_unregistered|].
  unfold NotFoundError, ClassificationError. by intros [= ?].
Qed.

Lemma unregistered_table_not_found_witness :
  parse_query "good morning" "orders" users_only
  = (Raise (NotFoundError "orders"), users_only)
  ∧ NotFoundError "orders" ≠ ClassificationError.
Proof.
  apply (unregistered_table_not_found users_only "good morning" "orders").
  reflexivity.
Defined.

(** C7. On a registered table, a sentence whose lower-cased form holds
    none of the thirteen keywords fails with the error "Could not
    determine query type". *)
Theorem no_keyword_classification_error self q t C :
  tables self !! t = Some C →
  Forall (λ kw, Py.contains kw (Py.lower q) = false) all_keywords →
  parse_query q t self = (Raise ClassificationError, self).
Proof.
  intros Hreg Hkw. rewrite (parse_query_registered _ _ _ _ Hreg). cbv zeta.
  unfold all_keywords in Hkw. rewrite !Forall_cons in Hkw. destruct_and!.
  unfold any_in, select_words, insert_words, update_words, delete_words.
  cbn [existsb]. by repeat match goal with H : _ = false |- _ => rewrite H; clear H end.
Qed.

Lemma no_keyword_classification_error_witness :
  parse_query "Good morning, users" "users" users_only
  = (Raise ClassificationError, users_only).
Proof.
  apply (no_keyword_classification_error users_only "Good morning, users" "users" users).
  - reflexivity.
  - apply (bool_decide_unpack _). vm_compute. exact I.
Defined.

(** ** The registry *)

(** C8. Registering a table twice leaves the generator as registering it
    with the second column map alone does: the entry of the table is the
    second column map, and every computation run afterwards, a call of
    [parse_query] among them, gives what it gives after the second
    registration alone. *)
Theorem add_table_last_wins self t C1 C2 :
  (add_table t C1 ;; add_table t C2) self = add_table t C2 self
  ∧ tables (snd ((add_table t C1 ;; add_table t C2) self)) !! t = Some C2
  ∧ ∀ q t',
      (add_table t C1 ;; add_table t C2 ;; parse_query q t') self
      = (add_table t C2 ;; parse_query q t') self.
Proof.
  assert (H : (add_table t C1 ;; add_table t C2) self = add_table t C2 self).
  { unfold mbind, M_bind, add_table, setitem_tables. cbn [tables].
    by rewrite insert_insert_eq. }
  split_and!; [done| |].
  - rewrite H. apply lookup_insert_eq.
  - intros q t'. unfold mbind, M_bind, add_table, setitem_tables.
    cbn [tables]. by rewrite insert_insert_eq.
Qed.

(** C9. [parse_query] leaves the generator as it found it, whether it
    returns a statement or fails with either error. *)
Theorem parse_query_frame self q t :
  snd (parse_query q t self) = self.
Proof.
  destruct (tables self !! t) as [C|] eqn:Hreg.
  - rewrite (parse_query_dispatch _ _ _ _ Hreg).
    destruct (classify_spec (Py.lower q)) as [[]|]; cbn [builder]; [| | |done..].
    + by rewrite (generate_select_registered _ _ _ _ Hreg).
    + by rewrite (generate_insert_registered _ _ _ _ Hreg).
    + by rewrite (generate_update_registered _ _ _ _ Hreg).
  - by rewrite parse_query_unregistered.
Qed.


(** * Further properties of the generator *)

(** ** Outcomes of [parse_query] and of the builders *)

Section outcomes.
Implicit Types (self : SQLQueryGenerator) (C : ColumnMap).
Implicit Types (q query t : string) (ty : stmt_type).

Lemma generate_delete_any self query t :
  _generate_delete query t self
  = (Ok ("DELETE FROM " +:+ t +:+ " WHERE condition = %s;"), self).
Proof. done. Qed.

(** A builder on a registered table returns a statement and keeps the
    generator. *)
Lemma builder_registered self query t C ty :
  tables self !! t = Some C →
  ∃ sql, builder ty query t self = (Ok sql, self).
Proof.
  intros Hreg. destruct ty; cbn [builder]; eexists.
  - apply (generate_select_registered _ _ _ _ Hreg).
  - apply (generate_insert_registered _ _ _ _ Hreg).
  - apply (generate_update_registered _ _ _ _ Hreg).
  - apply generate_delete_any.
Qed.

(** The three outcomes of [parse_query]: a statement, when the table is
    registered and the sentence has a keyword; the error of the missing
    table; the error of the missing keyword, on a registered table. The
    look-ups inside the builders ([self.tables[table_name]] and the piece
    of index 1 of the split) never fail: no [KeyError], no [IndexError]. *)
Theorem parse_query_outcomes self q t :
  (∃ sql, parse_query q t self = (Ok sql, self)
          ∧ is_Some (tables self !! t)
          ∧ is_Some (classify_spec (Py.lower q)))
  ∨ (parse_query q t self = (Raise (NotFoundError t), self)
     ∧ tables self !! t = None)
  ∨ (parse_query q t self = (Raise ClassificationError, self)
     ∧ is_Some (tables self !! t)
     ∧ classify_spec (Py.lower q) = None).
Proof.
  destruct (tables self !! t) as [C|] eqn:Hreg.
  - rewrite (parse_query_dispatch _ _ _ _ Hreg).
    destruct (classify_spec (Py.lower q)) as [ty|].
    + left. destruct (builder_registered self (Py.lower q) t C ty Hreg) as [sql ->].
      exists sql. eauto.
    + right; right. eauto.
  - right; left. split; [|done]. by apply parse_query_unregistered.
Qed.

(** Called on a table that is not registered, the builders of SELECT,
    INSERT and UPDATE raise [KeyError] with the table name; the builder of
    DELETE does not read the registry and returns its statement. *)
Theorem builders_on_unregistered self query t :
  tables self !! t = None →
  _generate_select query t self = (Raise (KeyError t), self)
  ∧ _generate_insert query t self = (Raise (KeyError t), self)
  ∧ _generate_update query t self = (Raise (KeyError t), self)
  ∧ _generate_delete query t self
    = (Ok ("DELETE FROM " +:+ t +:+ " WHERE condition = %s;"), self).
Proof.
  intros Hreg.
  assert (Hget : getitem_tables t self = (Raise (KeyError t), self)).
  { unfold getitem_tables, mbind, M_bind, get_tables. by rewrite Hreg. }
  unfold _generate_select, _generate_insert, _generate_update, mbind, M_bind.
  by rewrite Hget.
Qed.

Lemma builders_on_unregistered_witness :
  _generate_select "show all" "orders" users_only
  = (Raise (KeyError "orders"), users_only)
  ∧ _generate_insert "show all" "orders" users_only
    = (Raise (KeyError "orders"), users_only)
  ∧ _generate_update "show all" "orders" users_only
    = (Raise (KeyError "orders"), users_only)
  ∧ _generate_delete "show all" "orders" users_only
    = (Ok ("DELETE FROM " +:+ "orders" +:+ " WHERE condition = %s;"), users_only).
Proof.
  apply (builders_on_unregistered users_only "show all" "orders"). reflexivity.
Defined.

(** The statements of INSERT, UPDATE and DELETE take nothing from the
    sentence: two sentences of the same of these types give the same
    statement. *)
Theorem statement_ignores_sentence self q1 q2 t C ty :
  tables self !! t = Some C →
  ty ≠ SELECT →
  classify_spec (Py.lower q1) = Some ty →
  classify_spec (Py.lower q2) = Some ty →
  parse_query q1 t self = parse_query q2 t self.
Proof.
  intros Hreg Hty H1 H2.
  rewrite !(parse_query_dispatch _ _ _ _ Hreg), H1, H2.
  destruct ty; cbn [builder]; [done| | |done].
  - by rewrite !(generate_insert_registered _ _ _ _ Hreg).
  - by rewrite !(generate_update_registered _ _ _ _ Hreg).
Qed.

Lemma statement_ignores_sentence_witness :
  parse_query "add Ann, aged 30" "users" users_only
  = parse_query "Please INSERT nothing at all" "users" users_only.
Proof.
  apply (statement_ignores_sentence users_only _ _ "users" users INSERT);
    [reflexivity | discriminate | reflexivity | reflexivity].
Defined.

(** A table registered with no column: SELECT lists "*", INSERT has empty
    column and value lists, and UPDATE has an empty SET clause. *)
Theorem empty_column_map self q t :
  tables self !! t = Some [] →
  (classify_spec (Py.lower q) = Some SELECT →
   parse_query q t self
   = (Ok ("SELECT * FROM " +:+ t
          +:+ (if Py.contains "where" (Py.lower q)
               then " WHERE " +:+ condition_part (Py.lower q) else "")
          +:+ ";"), self))
  ∧ (classify_spec (Py.lower q) = Some INSERT →
     parse_query q t self
     = (Ok ("INSERT INTO " +:+ t +:+ " () VALUES ();"), self))
  ∧ (classify_spec (Py.lower q) = Some UPDATE →
     parse_query q t self
     = (Ok ("UPDATE " +:+ t +:+ " SET  WHERE condition = %s;"), self)).
Proof.
  intros Hreg. rewrite (parse_query_dispatch _ _ _ _ Hreg).
  split_and!; intros ->; cbn [builder].
  - by rewrite (generate_select_registered _ _ _ _ Hreg).
  - by rewrite (generate_insert_registered _ _ _ _ Hreg).
  - by rewrite (generate_update_registered _ _ _ _ Hreg).
Qed.

Lemma empty_column_map_witness :
  parse_query "show it" "empty" (MkGen {["empty" := []]})
  = (Ok ("SELECT * FROM " +:+ "empty" +:+ "" +:+ ";"), MkGen {["empty" := []]})
  ∧ parse_query "add it" "empty" (MkGen {["empty" := []]})
    = (Ok ("INSERT INTO " +:+ "empty" +:+ " () VALUES ();"), MkGen {["empty" := []]})
  ∧ parse_query "change it" "empty" (MkGen {["empty" := []]})
    = (Ok ("UPDATE " +:+ "empty" +:+ " SET  WHERE condition = %s;"),
       MkGen {["empty" := []]}).
Proof.
  split_and!.
  - apply (empty_column_map (MkGen {["empty" := []]}) "show it" "empty");
      reflexivity.
  - apply (empty_column_map (MkGen {["empty" := []]}) "add it" "empty");
      reflexivity.
  - apply (empty_column_map (MkGen {["empty" := []]}) "change it" "empty");
      reflexivity.
Defined.

(** The result of [parse_query] on a table depends on the entry of that
    table only. *)
Lemma parse_query_entry self1 self2 q t :
  tables self1 !! t = tables self2 !! t →
  fst (parse_query q t self1) = fst (parse_query q t self2).
Proof.
  intros Heq. destruct (tables self2 !! t) as [C|] eqn:Hreg.
  - rewrite !(parse_query_dispatch _ _ _ C) by done.
    destruct (classify_spec (Py.lower q)) as [[]|]; cbn [builder]; [| | |done..].
    + by rewrite !(generate_select_registered _ _ _ C).
    + by rewrite !(generate_insert_registered _ _ _ C).
    + by rewrite !(generate_update_registered _ _ _ C).
  - by rewrite !parse_query_unregistered.
Qed.

(** Registering another table changes nothing to what [parse_query]
    returns on a table. *)
Theorem add_table_other self q t t' C' :
  t ≠ t' →
  fst ((add_table t' C' ;; parse_query q t) self) = fst (parse_query q t self).
Proof.
  intros Hne. unfold mbind, M_bind, add_table, setitem_tables.
  apply parse_query_entry. cbn [tables]. by rewrite lookup_insert_ne.
Qed.

Lemma add_table_other_witness :
  fst ((add_table "orders" [("id", "int")] ;;
        parse_query "show the name" "users") users_only)
  = fst (parse_query "show the name" "users" users_only).
Proof. by apply (add_table_other users_only "show the name" "users" "orders"). Defined.

(** Registrations of two different tables commute. *)
Theorem add_table_commute self t1 t2 C1 C2 :
  t1 ≠ t2 →
  (add_table t1 C1 ;; add_table t2 C2) self
  = (add_table t2 C2 ;; add_table t1 C1) self.
Proof.
  intros Hne. unfold mbind, M_bind, add_table, setitem_tables. cbn [tables].
  by rewrite insert_insert_ne.
Qed.

Lemma add_table_commute_witness :
  (add_table "users" users ;; add_table "orders" []) __init__
  = (add_table "orders" [] ;; add_table "users" users) __init__.
Proof. by apply (add_table_commute __init__ "users" "orders"). Defined.

End outcomes.

(** ** Lower case, pieces and trimming *)

Section text.
Implicit Types (a b s sep sub piece : string) (ch : ascii) (k : nat).
Implicit Types (pieces : list string).

Lemma lower_char_idemp ch : Py.lower_char (Py.lower_char ch) = Py.lower_char ch.
Proof. by destruct ch as [[] [] [] [] [] [] [] []]. Qed.

Lemma lower_idemp s : Py.lower (Py.lower s) = Py.lower s.
Proof.
  induction s as [|ch s IH]; [done|].
  cbn [Py.lower]. by rewrite lower_char_idemp, IH.
Qed.

Lemma lower_cons_inv ch s :
  Py.lower (String ch s) = String ch s → Py.lower_char ch = ch ∧ Py.lower s = s.
Proof. cbn [Py.lower]. by intros [= ? ?]. Qed.

(** *** Prefixes and substrings of an append *)

Lemma prefix_app_l sub a b :
  String.prefix sub a = true → String.prefix sub (a +:+ b) = true.
Proof.
  revert a. induction sub as [|ch sub IH]; intros a; [by rewrite !prefix_nil|].
  destruct a as [|ch' a]; [done|].
  rewrite sapp_cons, !prefix_cons. intros [-> H]%andb_true_iff.
  by rewrite (IH _ H).
Qed.

Lemma contains_app_l sub a b :
  Py.contains sub a = true → Py.contains sub (a +:+ b) = true.
Proof.
  induction a as [|ch a IH].
  - cbn [Py.contains]. rewrite orb_false_r. intros H.
    destruct sub; [|done]. by destruct b.
  - rewrite sapp_cons, !contains_cons. intros [H|H]%orb_true_iff.
    + by rewrite <- sapp_cons, (prefix_app_l _ _ _ H).
    + rewrite (IH H). apply orb_true_r.
Qed.

Lemma contains_app_r sub a b :
  Py.contains sub b = true → Py.contains sub (a +:+ b) = true.
Proof.
  intros H. induction a as [|ch a IH]; [done|].
  rewrite sapp_cons, contains_cons, IH. apply orb_true_r.
Qed.

(** [word in query] is the substring test: [query] is [word] between some
    text before and some text after. *)
Theorem contains_substring sub s :
  Py.contains sub s = true ↔ ∃ a b, s = a +:+ sub +:+ b.
Proof.
  split.
  - intros [r Hr]%contains_after_first.
    destruct (after_first_app _ _ _ Hr) as (a & -> & _). by exists a, r.
  - intros (a & b & ->). apply contains_app_r, contains_app_l.
    destruct sub as [|ch sub]; [done|].
    rewrite contains_cons. rewrite <- (sapp_nil_r (String ch sub)) at 2.
    by rewrite prefix_app.
Qed.

(** *** The pieces of a split *)

Lemma join_cons_head sep ch piece pieces :
  Py.join sep (String ch piece :: pieces)
  = String ch (Py.join sep (piece :: pieces)).
Proof. by destruct pieces. Qed.

Lemma split_from_join sep k s :
  sep ≠ "" → Py.join sep (Py.split_from sep k s) = drop_chars k s.
Proof.
  intros Hsep. revert k. induction s as [|ch s IH]; intros k; [by destruct k|].
  destruct k as [|k]; cbn [Py.split_from drop_chars]; [|apply IH].
  destruct (String.prefix sep (String ch s)) eqn:Hp.
  - destruct (split_from_cons sep (pred (String.length sep)) s)
      as (piece & pieces & Hs).
    specialize (IH (pred (String.length sep))). rewrite Hs in IH |- *.
    rewrite join_cons_cons, IH, sapp_nil_l.
    rewrite (prefix_drop _ _ Hp) at 1. by destruct sep.
  - destruct (split_from_cons sep 0 s) as (piece & pieces & Hs).
    specialize (IH 0). rewrite Hs in IH |- *.
    by rewrite join_cons_head, IH.
Qed.

(** Joining the pieces of [query.split('where')] with "where" gives the
    query back: the split loses no character. *)
Theorem split_join sep s :
  sep ≠ "" → Py.join sep (Py.split sep s) = s.
Proof. intros Hsep. by apply (split_from_join sep 0 s). Qed.

Lemma split_join_witness :
  Py.join "where" (Py.split "where" "show name where age is 30 or where age is 40")
  = "show name where age is 30 or where age is 40".
Proof. by apply (split_join "where"). Defined.

(** The first piece is a prefix of the text. *)
Lemma split_head_prefix sep s piece pieces :
  Py.split_from sep 0 s = piece :: pieces → ∃ rest, s = piece +:+ rest.
Proof.
  revert piece pieces. induction s as [|ch s IH]; intros piece pieces.
  - intros [= <- <-]. by exists "".
  - cbn [Py.split_from]. destruct (String.prefix sep (String ch s)).
    + intros [= <- _]. by eexists.
    + destruct (split_from_cons sep 0 s) as (p & ps & Hs). rewrite Hs.
      intros [= <- <-]. destruct (IH _ _ Hs) as [rest ->]. by exists rest.
Qed.

(** No piece holds the separator. *)
Lemma split_pieces_absent sep k s :
  sep ≠ "" → Forall (λ piece, Py.contains sep piece = false) (Py.split_from sep k s).
Proof.
  intros Hsep.
  assert (Hnil : Py.contains sep "" = false) by by destruct sep.
  revert k. induction s as [|ch s IH]; intros k; [by constructor|].
  destruct k as [|k]; cbn [Py.split_from]; [|apply IH].
  destruct (String.prefix sep (String ch s)) eqn:Hp; [by constructor|].
  destruct (split_from_cons sep 0 s) as (p & ps & Hs).
  specialize (IH 0). rewrite Hs in IH |- *.
  apply Forall_cons in IH as [Hpc Hps]. constructor; [|done].
  rewrite contains_cons, Hpc, orb_false_r.
  destruct (split_head_prefix _ _ _ _ Hs) as [rest ->].
  destruct (String.prefix sep (String ch p)) eqn:Hp'; [|done].
  by rewrite <- sapp_cons, (prefix_app_l _ _ _ Hp') in Hp.
Qed.

(** The pieces of a lower-case text are lower-case. *)
Lemma split_pieces_lower sep k s :
  Py.lower s = s → Forall (λ piece, Py.lower piece = piece) (Py.split_from sep k s).
Proof.
  revert k. induction s as [|ch s IH]; intros k Hs; [by constructor|].
  apply lower_cons_inv in Hs as [Hch Hs].
  destruct k as [|k]; cbn [Py.split_from]; [|by apply IH].
  destruct (String.prefix sep (String ch s)); [constructor; [done|by apply IH]|].
  destruct (split_from_cons sep 0 s) as (p & ps & Hps).
  specialize (IH 0 Hs). rewrite Hps in IH |- *.
  apply Forall_cons in IH as [Hp Hrest]. constructor; [|done].
  cbn [Py.lower]. by rewrite Hch, Hp.
Qed.

(** *** Trimming *)

Lemma lstrip_suffix s : ∃ a, s = a +:+ Py.lstrip s.
Proof.
  induction s as [|ch s [a IH]]; [by exists ""|].
  cbn [Py.lstrip]. destruct (Py.isspace ch); [|by exists ""].
  exists (String ch a). by rewrite sapp_cons, <- IH.
Qed.

Lemma rstrip_prefix s : ∃ b, s = Py.rstrip s +:+ b.
Proof.
  induction s as [|ch s [b IH]]; [by exists ""|].
  cbn [Py.rstrip]. destruct (Py.rstrip s) as [|ch' r] eqn:Hr.
  - destruct (Py.isspace ch).
    + by exists (String ch s).
    + exists s. by rewrite sapp_cons, sapp_nil_l.
  - exists b. by rewrite sapp_cons, <- IH.
Qed.

Lemma strip_contains sub s :
  Py.contains sub (Py.strip s) = true → Py.contains sub s = true.
Proof.
  unfold Py.strip. intros H.
  destruct (lstrip_suffix s) as [a Ha]. rewrite Ha.
  destruct (rstrip_prefix (Py.lstrip s)) as [b Hb]. rewrite Hb.
  by apply contains_app_r, contains_app_l.
Qed.

Lemma lstrip_lower s : Py.lower s = s → Py.lower (Py.lstrip s) = Py.lstrip s.
Proof.
  induction s as [|ch s IH]; [done|]. intros Hs.
  cbn [Py.lstrip]. destruct (Py.isspace ch); [|done].
  apply lower_cons_inv in Hs as [_ Hs]. by apply IH.
Qed.

Lemma rstrip_lower s : Py.lower s = s → Py.lower (Py.rstrip s) = Py.rstrip s.
Proof.
  induction s as [|ch s IH]; [done|]. intros [Hch Hs]%lower_cons_inv.
  cbn [Py.rstrip]. specialize (IH Hs).
  destruct (Py.rstrip s) as [|ch' r].
  - destruct (Py.isspace ch); [done|]. cbn [Py.lower]. by rewrite Hch.
  - cbn [Py.lower] in *. by rewrite Hch, IH.
Qed.

Lemma strip_lower s : Py.lower s = s → Py.lower (Py.strip s) = Py.strip s.
Proof. intros H. by apply rstrip_lower, lstrip_lower. Qed.

Lemma rstrip_idemp s : Py.rstrip (Py.rstrip s) = Py.rstrip s.
Proof.
  induction s as [|ch s IH]; [done|].
  cbn [Py.rstrip]. destruct (Py.rstrip s) as [|ch' r] eqn:Hr.
  - destruct (Py.isspace ch) eqn:Hch; [done|]. cbn [Py.rstrip]. by rewrite Hch.
  - change (Py.rstrip (String ch (String ch' r)))
      with (match Py.rstrip (String ch' r) with
            | "" => if Py.isspace ch then "" else String ch ""
            | r' => String ch r'
            end).
    by rewrite IH.
Qed.

(** What [lstrip] leaves does not begin with white space. *)
Lemma lstrip_head s :
  match Py.lstrip s with
  | String ch _ => Py.isspace ch = false
  | EmptyString => True
  end.
Proof.
  induction s as [|ch s IH]; [done|].
  cbn [Py.lstrip]. by destruct (Py.isspace ch) eqn:Hch.
Qed.

Lemma strip_idemp s : Py.strip (Py.strip s) = Py.strip s.
Proof.
  unfold Py.strip. pose proof (lstrip_head s) as Hhead.
  destruct (Py.lstrip s) as [|ch r]; [done|].
  assert (Hl : Py.lstrip (Py.rstrip (String ch r)) = Py.rstrip (String ch r)).
  { cbn [Py.rstrip]. destruct (Py.rstrip r); rewrite ?Hhead;
      cbn [Py.lstrip]; by rewrite Hhead. }
  by rewrite Hl, rstrip_idemp.
Qed.

End text.

(** ** The sentence and the condition of a SELECT statement *)

Section condition.
Implicit Types (self : SQLQueryGenerator) (C : ColumnMap) (q t c : string).

(** The case of the sentence does not matter: the sentence and its
    lower-case form give the same result. *)
Theorem parse_query_lower self q t :
  parse_query (Py.lower q) t self = parse_query q t self.
Proof. unfold parse_query. by rewrite lower_idemp. Qed.

(** The statement of a SELECT sentence with "where", with its condition
    set apart. *)
Lemma select_with_where self q t C :
  tables self !! t = Some C →
  any_in select_words (Py.lower q) = true →
  Py.contains "where" (Py.lower q) = true →
  parse_query q t self
  = (Ok (("SELECT " +:+ column_list (select_loop (Py.lower q) (keys C) [])
          +:+ " FROM " +:+ t)
         +:+ " WHERE " +:+ condition_part (Py.lower q) +:+ ";"), self).
Proof.
  intros Hreg Hsel Hw.
  rewrite (parse_query_registered _ _ _ _ Hreg). cbv zeta. rewrite Hsel.
  rewrite (generate_select_registered _ _ _ _ Hreg), Hw.
  by rewrite !sapp_assoc.
Qed.

(** The piece of index 1 of the split at "where". *)
Lemma condition_piece query :
  ∃ piece, condition_part query = Py.strip piece
           ∧ Py.contains "where" piece = false
           ∧ (Py.lower query = query → Py.lower piece = piece).
Proof.
  unfold condition_part, Py.split.
  pose proof (split_pieces_absent "where" 0 query) as Habs.
  pose proof (split_pieces_lower "where" 0 query) as Hlow.
  destruct (Py.split_from "where" 0 query) as [|p0 [|p1 ps]].
  - by exists "".
  - by exists "".
  - exists p1. split_and!; [done| |].
    + specialize (Habs ltac:(done)).
      apply Forall_cons in Habs as [_ Habs]. by apply Forall_cons in Habs as [? _].
    + intros H. specialize (Hlow H).
      apply Forall_cons in Hlow as [_ Hlow]. by apply Forall_cons in Hlow as [? _].
Qed.

(** The condition is emitted in lower case, whatever the case of the
    sentence: the text of the condition does not keep its capitals. *)
Theorem condition_lower_case self q t C :
  tables self !! t = Some C →
  any_in select_words (Py.lower q) = true →
  Py.contains "where" (Py.lower q) = true →
  ∃ c, parse_query q t self
       = (Ok (("SELECT " +:+ column_list (select_loop (Py.lower q) (keys C) [])
               +:+ " FROM " +:+ t) +:+ " WHERE " +:+ c +:+ ";"), self)
       ∧ Py.lower c = c.
Proof.
  intros Hreg Hsel Hw. exists (condition_part (Py.lower q)).
  split; [by apply select_with_where|].
  destruct (condition_piece (Py.lower q)) as (piece & -> & _ & Hlow).
  apply strip_lower, Hlow, lower_idemp.
Qed.

Lemma condition_lower_case_witness :
  ∃ c, parse_query "Show name WHERE name is Bob" "users" users_only
       = (Ok (("SELECT " +:+ column_list
                 (select_loop (Py.lower "Show name WHERE name is Bob") (keys users) [])
               +:+ " FROM " +:+ "users") +:+ " WHERE " +:+ c +:+ ";"), users_only)
       ∧ Py.lower c = c.
Proof.
  apply (condition_lower_case users_only "Show name WHERE name is Bob" "users" users);
    reflexivity.
Defined.

(** The condition has no white space at either end: trimming it again
    changes nothing. *)
Theorem condition_trimmed self q t C :
  tables self !! t = Some C →
  any_in select_words (Py.lower q) = true →
  Py.contains "where" (Py.lower q) = true →
  ∃ c, parse_query q t self
       = (Ok (("SELECT " +:+ column_list (select_loop (Py.lower q) (keys C) [])
               +:+ " FROM " +:+ t) +:+ " WHERE " +:+ c +:+ ";"), self)
       ∧ Py.strip c = c.
Proof.
  intros Hreg Hsel Hw. exists (condition_part (Py.lower q)).
  split; [by apply select_with_where|].
  unfold condition_part. apply strip_idemp.
Qed.

Lemma condition_trimmed_witness :
  ∃ c, parse_query "show name where   age is 30  " "users" users_only
       = (Ok (("SELECT " +:+ column_list
                 (select_loop (Py.lower "show name where   age is 30  ") (keys users) [])
               +:+ " FROM " +:+ "users") +:+ " WHERE " +:+ c +:+ ";"), users_only)
       ∧ Py.strip c = c.
Proof.
  apply (condition_trimmed users_only "show name where   age is 30  " "users" users);
    reflexivity.
Defined.

(** The condition never holds the word "where": it stops where a second
    "where" begins. *)
Theorem condition_without_where self q t C :
  tables self !! t = Some C →
  any_in select_words (Py.lower q) = true →
  Py.contains "where" (Py.lower q) = true →
  ∃ c, parse_query q t self
       = (Ok (("SELECT " +:+ column_list (select_loop (Py.lower q) (keys C) [])
               +:+ " FROM " +:+ t) +:+ " WHERE " +:+ c +:+ ";"), self)
       ∧ Py.contains "where" c = false.
Proof.
  intros Hreg Hsel Hw. exists (condition_part (Py.lower q)).
  split; [by apply select_with_where|].
  destruct (condition_piece (Py.lower q)) as (piece & -> & Habs & _).
  destruct (Py.contains "where" (Py.strip piece)) eqn:Hc; [|done].
  apply strip_contains in Hc. congruence.
Qed.

Lemma condition_without_where_witness :
  ∃ c, parse_query "show name where city is nowhere" "users" users_only
       = (Ok (("SELECT " +:+ column_list
                 (select_loop (Py.lower "show name where city is nowhere") (keys users) [])
               +:+ " FROM " +:+ "users") +:+ " WHERE " +:+ c +:+ ";"), users_only)
       ∧ Py.contains "where" c = false.
Proof.
  apply (condition_without_where users_only "show name where city is nowhere" "users" users);
    reflexivity.
Defined.

End condition.

(** ** Placeholders, in general *)

(** The count of "%s" in the statements of INSERT, UPDATE and DELETE,
    with no condition on the names: the placeholders of the template and
    the occurrences that the table name and the column names bring. *)
Theorem placeholders_exact self q t C :
  tables self !! t = Some C →
  (classify_spec (Py.lower q) = Some INSERT →
   ∃ sql, parse_query q t self = (Ok sql, self)
          ∧ placeholders sql
            = length C + (placeholders t + sum_list (placeholders <$> keys C)))
  ∧ (classify_spec (Py.lower q) = Some UPDATE →
     ∃ sql, parse_query q t self = (Ok sql, self)
            ∧ placeholders sql
              = length C + 1 + (placeholders t + sum_list (placeholders <$> keys C)))
  ∧ (classify_spec (Py.lower q) = Some DELETE →
     ∃ sql, parse_query q t self = (Ok sql, self)
            ∧ placeholders sql = 1 + placeholders t).
Proof.
  intros Hreg.
  assert (Hlen : length (keys C) = length C) by apply length_map.
  rewrite (parse_query_dispatch _ _ _ _ Hreg).
  split_and!; intros ->; cbn [builder]; eexists; (split; [try done|]).
  - apply (generate_insert_registered _ _ _ _ Hreg).
  - rewrite placeholders_insert. lia.
  - apply (generate_update_registered _ _ _ _ Hreg).
  - rewrite placeholders_update. lia.
  - by rewrite placeholders_delete.
Qed.

Lemma placeholders_exact_witness :
  ∃ sql, parse_query "add a line" "log%s" (MkGen {["log%s" := [("%s", "int")]]})
         = (Ok sql, MkGen {["log%s" := [("%s", "int")]]})
         ∧ placeholders sql = 3.
Proof.
  apply (placeholders_exact (MkGen {["log%s" := [("%s", "int")]]})
           "add a line" "log%s" [("%s", "int")]); reflexivity.
Defined.

(** ** The request handler *)

Section handler_properties.
Variable repr : string → string.
Implicit Types (request : TableRequest) (self : SQLQueryGenerator).

Lemma after_request_registered request self :
  tables (after_request request self) !! table_name request
  = Some (columns request).
Proof. apply lookup_insert_eq. Qed.

Lemma process_query_run request self :
  process_query repr request self
  = (match classify_spec (Py.lower (natural_query request)) with
     | Some ty =>
         match fst (builder ty (Py.lower (natural_query request))
                      (table_name request) (after_request request self)) with
         | Ok sql => Success (success_message request) sql
         | Raise (ValueError msg) => HTTPException 400 msg
         | Raise e => HTTPException 500 (str_exn repr e)
         end
     | None => HTTPException 400 "Could not determine query type"
     end, after_request request self).
Proof.
  unfold process_query, mbind, M_bind, add_table, setitem_tables.
  fold (after_request request self).
  pose proof (after_request_registered request self) as Hreg.
  rewrite (parse_query_dispatch _ _ _ _ Hreg).
  destruct (classify_spec _) as [ty|]; [|done].
  destruct (builder_registered (after_request request self)
              (Py.lower (natural_query request)) _ _ ty Hreg) as [sql ->].
  done.
Qed.



(** The answer depends on the request only, not on what was registered
    before. *)
Theorem process_query_stateless request self1 self2 :
  fst (process_query repr request self1) = fst (process_query repr request self2).
Proof.
  rewrite !process_query_run. cbn [fst].
  destruct (classify_spec _) as [ty|]; [|done].
  pose proof (after_request_registered request self1) as H1.
  pose proof (after_request_registered request self2) as H2.
  destruct ty; cbn [builder].
  - by rewrite (generate_select_registered _ _ _ _ H1),
      (generate_select_registered _ _ _ _ H2).
  - by rewrite (generate_insert_registered _ _ _ _ H1),
      (generate_insert_registered _ _ _ _ H2).
  - by rewrite (generate_update_registered _ _ _ _ H1),
      (generate_update_registered _ _ _ _ H2).
  - done.
Qed.

(** Sending a request a second time gives the same answer and leaves the
    generator as the first time left it. *)
Theorem process_query_twice request self :
  process_query repr request (snd (process_query repr request self))
  = process_query repr request self.
Proof.
  rewrite (process_query_run request self). cbn [snd].
  rewrite process_query_run.
  assert (after_request request (after_request request self)
          = after_request request self) as ->; [|done].
  unfold after_request. cbn [tables]. by rewrite insert_insert_eq.
Qed.

End handler_properties.
